(** * eslint-plugin-purescript-ffi: the two lint rules of [index.js]

    A shallow embedding of the rule callbacks of [index.js]
    ([no-logic-in-ffi] and [no-local-imports]) and of the part of
    JavaScript and of the ESTree syntax tree they read, followed by the
    properties of the callbacks.

    - [JS]: the JavaScript values a [Literal] node can carry, truthiness,
      [String.prototype.startsWith], [Array.prototype.includes], and
      completions (a normal result or a thrown [TypeError]).
    - [ESTree]: syntax-tree nodes, their [type] tag and the property reads
      the callbacks perform.
    - [Host]: what the rules get from ESLint: the visited node with its
      [parent] link, [context.report], and the dispatch of a node to the
      callback registered under its [type].
    - [no_logic_in_ffi], [no_local_imports]: the two rules. *)

From Stdlib Require Import String Ascii List Bool ZArith Lia.
From Stdlib Require Import SpecFloat.
Import ListNotations.
Open Scope string_scope.

(* ================================================================== *)
(** * JavaScript values *)
(* ================================================================== *)

Module JS.

(** The values that reach the callbacks: the [value] of a [Literal] node is
    a string, a boolean, [null], a number, a RegExp object or a bigint;
    reading a property that an object does not have gives [undefined].
    A string is a sequence of code units; every prefix the rules test for
    is ASCII, one code unit per character. *)
Inductive value : Type :=
| undefined
| null
| Bool (b : bool)
| Number (x : spec_float)
| BigInt (z : Z)
| Str (s : string)
| RegExp (pattern flags : string).

(** ToBoolean: [undefined], [null], [false], [+0], [-0], [NaN], [0n] and
    the empty string are falsy; every object is truthy. *)
Definition ToBoolean (v : value) : bool :=
  match v with
  | undefined | null => false
  | Bool b => b
  | Number (S754_zero _) | Number S754_nan => false
  | Number _ => true
  | BigInt z => negb (z =? 0)%Z
  | Str s => negb (s =? "")
  | RegExp _ _ => true
  end.

(** [a || b] *)
Definition or (a b : value) : value := if ToBoolean a then a else b.

(** [v === s] for a string [s]: strict equality never converts. *)
Definition strict_eq_string (v : value) (s : string) : bool :=
  match v with
  | Str t => t =? s
  | _ => false
  end.

(** [s.startsWith(searchString)] *)
Fixpoint startsWith (s searchString : string) {struct searchString} : bool :=
  match searchString with
  | EmptyString => true
  | String c rest =>
      match s with
      | EmptyString => false
      | String d s' => Ascii.eqb d c && startsWith s' rest
      end
  end.

(** [l.includes(v)] for an array of strings: SameValueZero against each
    element, so that a value that is not a string is never found. *)
Definition includes (l : list string) (v : value) : bool :=
  existsb (strict_eq_string v) l.

(** Calling a property that does not exist throws a [TypeError]; so does
    reading a property of [undefined] or [null]. *)
Inductive error : Type :=
| TypeError (message : string).

Inductive completion (A : Type) : Type :=
| Normal (a : A)
| Throw (e : error).
Arguments Normal {A} a.
Arguments Throw {A} e.

End JS.
Import JS.

(* ================================================================== *)
(** * ESTree nodes *)
(* ================================================================== *)

Module ESTree.

(** The node kinds the rules inspect carry their fields; [Other] stands for
    every kind the rules never look into (its [type] tag and its
    children). *)
#[warnings="-register-all"]
Inductive node : Type :=
| Program (body : list node)
| Identifier (name : string)
| PrivateIdentifier (name : string)
| Literal (value : JS.value)
| MemberExpression (object property : node) (computed optional : bool)
| CallExpression (callee : node) (arguments : list node)
| ImportExpression (source : node)
| ImportDeclaration (specifiers : list node) (source : node)
| ExportNamedDeclaration (declaration : option node)
| ExportDefaultDeclaration (declaration : node)
| FunctionDeclaration (id : option node) (params : list node) (body : node)
| BlockStatement (body : list node)
| IfStatement (test consequent : node) (alternate : option node)
| ForStatement (init test update : option node) (body : node)
| ForInStatement (left right body : node)
| ForOfStatement (left right body : node)
| WhileStatement (test body : node)
| DoWhileStatement (body test : node)
| ConditionalExpression (test consequent alternate : node)
| SwitchStatement (discriminant : node) (cases : list node)
| Other (type : string) (children : list node).

(** [node.type] *)
Definition type (n : node) : string :=
  match n with
  | Program _ => "Program"
  | Identifier _ => "Identifier"
  | PrivateIdentifier _ => "PrivateIdentifier"
  | Literal _ => "Literal"
  | MemberExpression _ _ _ _ => "MemberExpression"
  | CallExpression _ _ => "CallExpression"
  | ImportExpression _ => "ImportExpression"
  | ImportDeclaration _ _ => "ImportDeclaration"
  | ExportNamedDeclaration _ => "ExportNamedDeclaration"
  | ExportDefaultDeclaration _ => "ExportDefaultDeclaration"
  | FunctionDeclaration _ _ _ => "FunctionDeclaration"
  | BlockStatement _ => "BlockStatement"
  | IfStatement _ _ _ => "IfStatement"
  | ForStatement _ _ _ _ => "ForStatement"
  | ForInStatement _ _ _ => "ForInStatement"
  | ForOfStatement _ _ _ => "ForOfStatement"
  | WhileStatement _ _ => "WhileStatement"
  | DoWhileStatement _ _ => "DoWhileStatement"
  | ConditionalExpression _ _ _ => "ConditionalExpression"
  | SwitchStatement _ _ => "SwitchStatement"
  | Other t _ => t
  end.

(** Property reads. A node-valued property that the node does not have
    reads as [None] (JavaScript's [undefined]); a primitive-valued one
    reads as the value [undefined]. *)

(** [n.callee] *)
Definition callee (n : node) : option node :=
  match n with
  | CallExpression c _ => Some c
  | _ => None
  end.

(** [n.arguments] *)
Definition arguments (n : node) : option (list node) :=
  match n with
  | CallExpression _ args => Some args
  | _ => None
  end.

(** [n.property] *)
Definition property (n : node) : option node :=
  match n with
  | MemberExpression _ p _ _ => Some p
  | _ => None
  end.

(** [n.source] *)
Definition source (n : node) : option node :=
  match n with
  | ImportExpression s | ImportDeclaration _ s => Some s
  | _ => None
  end.

(** [n.id], where a [null] id and a missing one both read as [None] *)
Definition id (n : node) : option node :=
  match n with
  | FunctionDeclaration i _ _ => i
  | _ => None
  end.

(** [n.name] *)
Definition name (n : node) : JS.value :=
  match n with
  | Identifier s | PrivateIdentifier s => Str s
  | _ => undefined
  end.

(** [n.value] *)
Definition value (n : node) : JS.value :=
  match n with
  | Literal v => v
  | _ => undefined
  end.

End ESTree.

(* ================================================================== *)
(** * The host: visited nodes, [context.report], dispatch *)
(* ================================================================== *)

Module Host.

(** A node as a callback receives it: the node and what its [parent]
    property points to ([None] for the root, whose parent is [null]). *)
Record visited : Type := Visit {
  self : ESTree.node;
  parent : option ESTree.node
}.

(** The argument of [context.report]: [{ node, messageId, data }]. A
    report without [data] has the empty mapping. *)
Record descriptor : Type := Descriptor {
  node : visited;
  messageId : string;
  data : list (string * JS.value)
}.

(** The state a callback can touch: the reports made so far, oldest
    first. *)
Definition context : Type := list descriptor.

(** A callback body: it runs on the context and either completes with a
    result and the new context, or throws. *)
Definition M (A : Type) : Type := context -> completion (A * context).

Definition ret {A : Type} (a : A) : M A :=
  fun ctx => Normal (a, ctx).

Definition bind {A B : Type} (m : M A) (k : A -> M B) : M B :=
  fun ctx =>
    match m ctx with
    | Normal (a, ctx') => k a ctx'
    | Throw e => Throw e
    end.

Definition throw {A : Type} (e : error) : M A :=
  fun _ => Throw e.

(** [context.report(d)] *)
Definition report (d : descriptor) : M unit :=
  fun ctx => Normal (tt, (ctx ++ [d])%list).

(** Lifting a completion that does not touch the context. *)
Definition lift {A : Type} (c : completion A) : M A :=
  match c with
  | Normal a => ret a
  | Throw e => throw e
  end.

(** [o.field] followed by a further property read: when [o.field] is
    [undefined] or [null] that read throws. *)
Definition deref {A : Type} (field : string) (o : option A) : M A :=
  match o with
  | Some a => ret a
  | None => throw (TypeError ("Cannot read properties of undefined (reading '" ++ field ++ "')"))
  end.

Definition callback : Type := visited -> M unit.

(** What [create(context)] returns: callbacks keyed by node type. *)
Definition listeners : Type := list (string * callback).

Fixpoint listener (key : string) (ls : listeners) : option callback :=
  match ls with
  | [] => None
  | (k, f) :: rest => if k =? key then Some f else listener key rest
  end.

(** ESLint calls, on entering a node, the callback registered under the
    node's [type], if there is one. *)
Definition enter (ls : listeners) (n : visited) : M unit :=
  match listener (ESTree.type (self n)) ls with
  | Some f => f n
  | None => ret tt
  end.

End Host.
Import Host.

Declare Scope js_scope.
Delimit Scope js_scope with js.
Notation "x <- m ;; k" := (bind m (fun x => k))
  (at level 61, m at next level, right associativity) : js_scope.
Open Scope js_scope.

(** [if (b) { m }] *)
Definition when (b : bool) (m : M unit) : M unit :=
  if b then m else ret tt.

(* ================================================================== *)
(** * Rule [no-logic-in-ffi] *)
(* ================================================================== *)

Definition LOGIC_INDICATOR_MESSAGE : string :=
  "FFI files must only contain stubs to external libraries. Move this logic to PureScript.".

Definition ARRAY_METHODS : list string :=
  [ "map";
    "filter";
    "reduce";
    "findIndex";
    "find";
    "some";
    "every";
    "flatMap" ].

Module no_logic_in_ffi.

(** [meta.messages] *)
Definition messages : list (string * string) :=
  [ ("noHelperFunctions",
     "Non-exported helper function '{{name}}' detected. FFI should only have exports. Move logic to PureScript.");
    ("noIfStatements",
     "if/else statements indicate business logic. " ++ LOGIC_INDICATOR_MESSAGE);
    ("noLoops",
     "Loop statements indicate business logic. " ++ LOGIC_INDICATOR_MESSAGE);
    ("noTernary",
     "Ternary operators indicate business logic. " ++ LOGIC_INDICATOR_MESSAGE);
    ("noSwitch",
     "Switch statements indicate business logic. " ++ LOGIC_INDICATOR_MESSAGE);
    ("noArrayMethods",
     "Array method '.{{method}}()' indicates data transformation. " ++ LOGIC_INDICATOR_MESSAGE);
    ("noComplexCatch",
     "Complex catch blocks with logic indicate error handling that should be in PureScript.") ].

(** [node.id?.name] *)
Definition id_name (n : ESTree.node) : JS.value :=
  match ESTree.id n with
  | Some i => ESTree.name i
  | None => undefined
  end.

Definition FunctionDeclaration (node : visited) : M unit :=
  parent <- deref "type" (parent node) ;;
  when (negb (ESTree.type parent =? "ExportNamedDeclaration") &&
        negb (ESTree.type parent =? "ExportDefaultDeclaration"))
    (report {| node := node;
               messageId := "noHelperFunctions";
               data := [("name", JS.or (id_name (self node)) (Str "anonymous"))] |}).

Definition IfStatement (node : visited) : M unit :=
  report {| node := node; messageId := "noIfStatements"; data := [] |}.

Definition ForStatement (node : visited) : M unit :=
  report {| node := node; messageId := "noLoops"; data := [] |}.

Definition ForInStatement (node : visited) : M unit :=
  report {| node := node; messageId := "noLoops"; data := [] |}.

Definition ForOfStatement (node : visited) : M unit :=
  report {| node := node; messageId := "noLoops"; data := [] |}.

Definition WhileStatement (node : visited) : M unit :=
  report {| node := node; messageId := "noLoops"; data := [] |}.

Definition DoWhileStatement (node : visited) : M unit :=
  report {| node := node; messageId := "noLoops"; data := [] |}.

Definition ConditionalExpression (node : visited) : M unit :=
  report {| node := node; messageId := "noTernary"; data := [] |}.

Definition SwitchStatement (node : visited) : M unit :=
  report {| node := node; messageId := "noSwitch"; data := [] |}.

Definition CallExpression (node : visited) : M unit :=
  callee <- deref "type" (ESTree.callee (self node)) ;;
  if ESTree.type callee =? "MemberExpression" then
    property <- deref "type" (ESTree.property callee) ;;
    when ((ESTree.type property =? "Identifier") &&
          JS.includes ARRAY_METHODS (ESTree.name property))
      (report {| node := node;
                 messageId := "noArrayMethods";
                 data := [("method", ESTree.name property)] |})
  else ret tt.

Definition create : listeners :=
  [ ("FunctionDeclaration", FunctionDeclaration);
    ("IfStatement", IfStatement);
    ("ForStatement", ForStatement);
    ("ForInStatement", ForInStatement);
    ("ForOfStatement", ForOfStatement);
    ("WhileStatement", WhileStatement);
    ("DoWhileStatement", DoWhileStatement);
    ("ConditionalExpression", ConditionalExpression);
    ("SwitchStatement", SwitchStatement);
    ("CallExpression", CallExpression) ].

End no_logic_in_ffi.

(* ================================================================== *)
(** * Rule [no-local-imports] *)
(* ================================================================== *)

Module no_local_imports.

(** [meta.messages] *)
Definition messages : list (string * string) :=
  [ ("noLocalImport",
     "Import from local file '{{source}}' is not allowed in FFI. FFI must only import from external npm packages or Node.js built-ins. Move this logic to PureScript.");
    ("noLocalRequire",
     "Require of local file '{{source}}' is not allowed in FFI. FFI must only require external npm packages or Node.js built-ins. Move this logic to PureScript.");
    ("noLocalDynamicImport",
     "Dynamic import from local file '{{source}}' is not allowed in FFI. FFI must only import from external npm packages or Node.js built-ins. Move this logic to PureScript.") ].

(** [source.startsWith(p)] on an arbitrary value: only a string has the
    method; on any other truthy value ([true], a non-zero number or
    bigint, a RegExp) the property reads as [undefined] and the call
    throws. [undefined] and [null] never get here. *)
Definition call_startsWith (source : JS.value) (p : string) : completion bool :=
  match source with
  | Str s => Normal (JS.startsWith s p)
  | _ => Throw (TypeError "source.startsWith is not a function")
  end.

Definition isLocalImport (source : JS.value) : completion bool :=
  if negb (ToBoolean source) then Normal false
  else
    match call_startsWith source "./" with
    | Normal true => Normal true
    | Normal false => call_startsWith source "../"
    | Throw e => Throw e
    end.

Definition ImportDeclaration (node : visited) : M unit :=
  source_node <- deref "value" (ESTree.source (self node)) ;;
  let source := ESTree.value source_node in
  local <- lift (isLocalImport source) ;;
  when local
    (report {| node := node;
               messageId := "noLocalImport";
               data := [("source", source)] |}).

Definition CallExpression (node : visited) : M unit :=
  callee <- deref "type" (ESTree.callee (self node)) ;;
  if (ESTree.type callee =? "Identifier") &&
     strict_eq_string (ESTree.name callee) "require"
  then
    arguments <- deref "length" (ESTree.arguments (self node)) ;;
    if (0 <? List.length arguments)%nat then
      argument0 <- deref "type" (nth_error arguments 0) ;;
      if ESTree.type argument0 =? "Literal" then
        let source := ESTree.value argument0 in
        local <- lift (isLocalImport source) ;;
        when local
          (report {| node := node;
                     messageId := "noLocalRequire";
                     data := [("source", source)] |})
      else ret tt
    else ret tt
  else ret tt.

Definition ImportExpression (node : visited) : M unit :=
  source_node <- deref "type" (ESTree.source (self node)) ;;
  if ESTree.type source_node =? "Literal" then
    let source := ESTree.value source_node in
    local <- lift (isLocalImport source) ;;
    when local
      (report {| node := node;
                 messageId := "noLocalDynamicImport";
                 data := [("source", source)] |})
  else ret tt.

Definition create : listeners :=
  [ ("ImportDeclaration", ImportDeclaration);
    ("CallExpression", CallExpression);
    ("ImportExpression", ImportExpression) ].

End no_local_imports.

(* ================================================================== *)
(** * Example trees *)
(* ================================================================== *)

Module Examples.
Import ESTree.

(** [require(42)] *)
Definition require_42 : node :=
  CallExpression (Identifier "require")
    [Literal (Number (S754_finite false 5910974510923776 (-47)))].

(** [import(true)] *)
Definition import_true : node :=
  ImportExpression (Literal (Bool true)).

(** [x[map](f)]: a computed access whose key is the variable [map] *)
Definition x_computed_map_f : node :=
  CallExpression
    (MemberExpression (Identifier "x") (Identifier "map") true false)
    [Identifier "f"].

(** [x["map"](f)] *)
Definition x_literal_map_f : node :=
  CallExpression
    (MemberExpression (Identifier "x") (Literal (Str "map")) true false)
    [Identifier "f"].

(** [x.map(f)] *)
Definition x_map_f : node :=
  CallExpression
    (MemberExpression (Identifier "x") (Identifier "map") false false)
    [Identifier "f"].

(** [require(someVariable)] *)
Definition require_someVariable : node :=
  CallExpression (Identifier "require") [Identifier "someVariable"].

(** [function helper(x) { }] *)
Definition function_helper : node :=
  FunctionDeclaration (Some (Identifier "helper")) [Identifier "x"]
    (BlockStatement []).

End Examples.

(* ================================================================== *)
(** * The spec's classification of specifiers *)
(* ================================================================== *)

(** The classification in the spec's words, to be compared with
    [isLocalImport]: a value is Local when it is a non-empty string that
    starts with [./] or [../]. *)
Definition Local (v : JS.value) : Prop :=
  exists s : string,
    v = Str s /\ s <> "" /\
    ((exists rest, s = "./" ++ rest) \/ (exists rest, s = "../" ++ rest)).

(* ================================================================== *)
(** * What a callback can do to the context *)
(* ================================================================== *)

(** The outcome of a callback at a node: it throws, or it completes
    leaving the context as it was, or it completes after one report, made
    on the visited node under one of the message keys [ids]. *)
Definition at_most_one_report (ids : list string) (f : callback) : Prop :=
  forall (n : visited) (ctx : context),
    (exists e, f n ctx = Throw e) \/
    f n ctx = Normal (tt, ctx) \/
    (exists d, f n ctx = Normal (tt, (ctx ++ [d])%list) /\
               node d = n /\ In (messageId d) ids).

(** The outcome does not depend on the reports made before: a callback
    run on [ctx] does what it does on the empty context, after [ctx]. *)
Definition stateless (f : callback) : Prop :=
  forall (n : visited) (ctx : context),
    f n ctx =
    match f n [] with
    | Normal (u, ds) => Normal (u, (ctx ++ ds)%list)
    | Throw e => Throw e
    end.

(** The message keys under which the callbacks of [no-logic-in-ffi]
    report. *)
Definition logic_keys : list string :=
  [ "noHelperFunctions"; "noIfStatements"; "noLoops"; "noTernary";
    "noSwitch"; "noArrayMethods" ].

(** The message keys under which the callbacks of [no-local-imports]
    report. *)
Definition import_keys : list string :=
  [ "noLocalImport"; "noLocalRequire"; "noLocalDynamicImport" ].

(** The type tags of the node kinds that carry fields of their own. *)
Definition fielded_types : list string :=
  [ "Program"; "Identifier"; "PrivateIdentifier"; "Literal";
    "MemberExpression"; "CallExpression"; "ImportExpression";
    "ImportDeclaration"; "ExportNamedDeclaration";
    "ExportDefaultDeclaration"; "FunctionDeclaration"; "BlockStatement";
    "IfStatement"; "ForStatement"; "ForInStatement"; "ForOfStatement";
    "WhileStatement"; "DoWhileStatement"; "ConditionalExpression";
    "SwitchStatement" ].

(** A node has the fields of its type: an [Other] node does not bear the
    tag of a kind that has fields of its own. *)
Definition conforms (n : ESTree.node) : bool :=
  match n with
  | ESTree.Other t _ => negb (existsb (String.eqb t) fielded_types)
  | _ => true
  end.

(** A visited node as a parser and ESLint hand it over: the node and, for
    a call, its callee conform, and every node but the [Program] root has
    a parent. *)
Definition conforming_visit (n : visited) : bool :=
  conforms (self n) &&
  match self n with
  | ESTree.CallExpression c _ => conforms c
  | _ => true
  end &&
  match parent n with
  | Some _ => true
  | None => ESTree.type (self n) =? "Program"
  end.

(* ================================================================== *)
(** * Strings and arrays *)
(* ================================================================== *)

Section Strings.

Lemma startsWith_iff (p s : string) :
  JS.startsWith s p = true <-> exists rest, s = p ++ rest.
Proof.
  revert s; induction p as [|c p IH]; intros s; simpl.
  - split; [intros _; now exists s | reflexivity].
  - destruct s as [|d s]; simpl.
    + split; [discriminate | intros [rest H]; discriminate].
    + rewrite andb_true_iff, Ascii.eqb_eq, IH. split.
      * intros [-> [rest ->]]. now exists rest.
      * intros [rest H]. injection H as -> ->. split; [reflexivity | now exists rest].
Qed.

Lemma startsWith_nonempty (p s : string) :
  p <> "" -> JS.startsWith s p = true -> s <> "".
Proof.
  intros Hp H ->. destruct p; [now apply Hp | discriminate].
Qed.

Lemma includes_iff (l : list string) (name : string) :
  JS.includes l (Str name) = true <-> In name l.
Proof.
  unfold JS.includes. rewrite existsb_exists. split.
  - intros [x [Hin Heq]]. simpl in Heq. apply String.eqb_eq in Heq. now subst.
  - intros Hin. exists name. split; [assumption | apply String.eqb_refl].
Qed.

Lemma includes_not_string (l : list string) (v : JS.value) :
  (forall s, v <> Str s) -> JS.includes l v = false.
Proof.
  intros H. unfold JS.includes. induction l as [|x l IH]; [reflexivity|].
  simpl. rewrite IH. destruct v; try reflexivity. now destruct (H s).
Qed.

End Strings.

(* ================================================================== *)
(** * [isLocalImport] *)
(* ================================================================== *)

Section Classification.
Import no_local_imports.

Lemma isLocalImport_string (s : string) :
  isLocalImport (Str s) = Normal (JS.startsWith s "./" || JS.startsWith s "../").
Proof.
  unfold isLocalImport. simpl ToBoolean.
  destruct s as [|c s]; [reflexivity|].
  cbn [negb String.eqb call_startsWith].
  destruct (JS.startsWith (String c s) "./"); reflexivity.
Qed.

Lemma isLocalImport_Local (v : JS.value) :
  isLocalImport v = Normal true <-> Local v.
Proof.
  split.
  - intros H. destruct v as [| |b|x|z|s|pat fl].
    1-2: discriminate H.
    + destruct b; discriminate H.
    + destruct x as [sg|sg| |sg m e]; discriminate H.
    + unfold isLocalImport in H; simpl in H.
      destruct (z =? 0)%Z; discriminate H.
    + rewrite isLocalImport_string in H. injection H as H.
      apply orb_true_iff in H. exists s. split; [reflexivity|]. split.
      * destruct H as [H|H];
          [apply (startsWith_nonempty "./" s) | apply (startsWith_nonempty "../" s)];
          (discriminate || exact H).
      * destruct H as [H|H];
          [left; apply (proj1 (startsWith_iff "./" s))
          | right; apply (proj1 (startsWith_iff "../" s))]; exact H.
    + discriminate H.
  - intros [s [-> [_ H]]]. rewrite isLocalImport_string. f_equal.
    apply orb_true_iff.
    destruct H as [H|H];
      [left; apply (proj2 (startsWith_iff "./" s))
      | right; apply (proj2 (startsWith_iff "../" s))]; exact H.
Qed.

Lemma isLocalImport_throws (v : JS.value) :
  ToBoolean v = true -> (forall s, v <> Str s) ->
  isLocalImport v = Throw (TypeError "source.startsWith is not a function").
Proof.
  intros Ht Hs. unfold isLocalImport. rewrite Ht. simpl.
  destruct v; try reflexivity. now destruct (Hs s).
Qed.

End Classification.

(* ================================================================== *)
(** * Running a callback *)
(* ================================================================== *)

(** Case analysis on the innermost scrutinee, until none is left. *)
Ltac innermost_case :=
  match goal with
  | |- context [match ?x with _ => _ end] =>
      lazymatch x with
      | context [match _ with _ => _ end] => fail
      | _ => destruct x eqn:?
      end
  end.

Ltac run_callback :=
  unfold bind, deref, when, lift, ret, throw, report;
  repeat innermost_case.

Ltac one_report :=
  intros ? ?; run_callback;
  solve [ left; eexists; reflexivity
        | right; left; reflexivity
        | right; right; eexists; split; [reflexivity | split; [reflexivity | simpl; tauto]] ].

Ltac no_state :=
  intros ? ?; run_callback;
  rewrite ?app_nil_r; reflexivity.

Section NoLogicInFfi.
Import no_logic_in_ffi.

Lemma FunctionDeclaration_one : at_most_one_report ["noHelperFunctions"] FunctionDeclaration.
Proof. unfold FunctionDeclaration. one_report. Qed.

Lemma CallExpression_one : at_most_one_report ["noArrayMethods"] CallExpression.
Proof. unfold CallExpression. one_report. Qed.

Lemma FunctionDeclaration_stateless : stateless FunctionDeclaration.
Proof. unfold FunctionDeclaration. no_state. Qed.

Lemma CallExpression_stateless : stateless CallExpression.
Proof. unfold CallExpression. no_state. Qed.

End NoLogicInFfi.

Section NoLocalImports.
Import no_local_imports.

Lemma ImportDeclaration_one : at_most_one_report ["noLocalImport"] ImportDeclaration.
Proof. unfold ImportDeclaration. one_report. Qed.

Lemma require_one : at_most_one_report ["noLocalRequire"] CallExpression.
Proof. unfold CallExpression. one_report. Qed.

Lemma ImportExpression_one : at_most_one_report ["noLocalDynamicImport"] ImportExpression.
Proof. unfold ImportExpression. one_report. Qed.

Lemma ImportDeclaration_stateless : stateless ImportDeclaration.
Proof. unfold ImportDeclaration. no_state. Qed.

Lemma require_stateless : stateless CallExpression.
Proof. unfold CallExpression. no_state. Qed.

Lemma ImportExpression_stateless : stateless ImportExpression.
Proof. unfold ImportExpression. no_state. Qed.

End NoLocalImports.

(* ================================================================== *)
(** * Dispatch *)
(* ================================================================== *)

Section Dispatch.

Lemma listener_In (key : string) (ls : listeners) (f : callback) :
  listener key ls = Some f -> In f (map snd ls).
Proof.
  induction ls as [|[k g] ls IH]; simpl; [discriminate|].
  destruct (k =? key); [intros [= ->]; now left | intros H; right; auto].
Qed.

Lemma at_most_one_report_incl (ids ids' : list string) (f : callback) :
  incl ids ids' -> at_most_one_report ids f -> at_most_one_report ids' f.
Proof.
  intros Hincl H n ctx.
  destruct (H n ctx) as [Ht | [Hn | [d [Hd [Hnode Hin]]]]]; auto.
  right; right. exists d. auto.
Qed.

Lemma enter_at_most_one_report (ids : list string) (ls : listeners) :
  Forall (at_most_one_report ids) (map snd ls) ->
  at_most_one_report ids (enter ls).
Proof.
  intros Hall n ctx. unfold enter.
  destruct (listener (ESTree.type (self n)) ls) as [f|] eqn:Hf.
  - apply listener_In in Hf.
    rewrite Forall_forall in Hall. exact (Hall f Hf n ctx).
  - right; left; reflexivity.
Qed.

Lemma enter_stateless (ls : listeners) :
  Forall stateless (map snd ls) -> stateless (enter ls).
Proof.
  intros Hall n ctx. unfold enter.
  destruct (listener (ESTree.type (self n)) ls) as [f|] eqn:Hf.
  - apply listener_In in Hf.
    rewrite Forall_forall in Hall. exact (Hall f Hf n ctx).
  - unfold ret. now rewrite app_nil_r.
Qed.

Ltac narrow H :=
  eapply at_most_one_report_incl; [| exact H];
  intros k Hk; simpl in Hk |- *; tauto.

Lemma no_logic_in_ffi_at_most_one_report :
  at_most_one_report logic_keys (enter no_logic_in_ffi.create).
Proof.
  apply enter_at_most_one_report. simpl.
  repeat apply Forall_cons; try apply Forall_nil.
  - narrow FunctionDeclaration_one.
  - unfold no_logic_in_ffi.IfStatement; one_report.
  - unfold no_logic_in_ffi.ForStatement; one_report.
  - unfold no_logic_in_ffi.ForInStatement; one_report.
  - unfold no_logic_in_ffi.ForOfStatement; one_report.
  - unfold no_logic_in_ffi.WhileStatement; one_report.
  - unfold no_logic_in_ffi.DoWhileStatement; one_report.
  - unfold no_logic_in_ffi.ConditionalExpression; one_report.
  - unfold no_logic_in_ffi.SwitchStatement; one_report.
  - narrow CallExpression_one.
Qed.

Lemma no_local_imports_at_most_one_report :
  at_most_one_report import_keys (enter no_local_imports.create).
Proof.
  apply enter_at_most_one_report. simpl.
  repeat apply Forall_cons; try apply Forall_nil.
  - narrow ImportDeclaration_one.
  - narrow require_one.
  - narrow ImportExpression_one.
Qed.

Lemma no_logic_in_ffi_stateless : stateless (enter no_logic_in_ffi.create).
Proof.
  apply enter_stateless. simpl.
  repeat apply Forall_cons; try apply Forall_nil;
    try (intros ? ?; reflexivity).
  - exact FunctionDeclaration_stateless.
  - exact CallExpression_stateless.
Qed.

Lemma no_local_imports_stateless : stateless (enter no_local_imports.create).
Proof.
  apply enter_stateless. simpl.
  repeat apply Forall_cons; try apply Forall_nil.
  - exact ImportDeclaration_stateless.
  - exact require_stateless.
  - exact ImportExpression_stateless.
Qed.

End Dispatch.

(* ================================================================== *)
(** * Import classification *)
(* ================================================================== *)

Section ImportClassification.
Import no_local_imports.

(** C1. [isLocalImport] answers [true] exactly on the non-empty strings
    that start with [./] or [../], whatever value it is given. In
    particular ["./a"] and ["../a/b"] are local, and ["fs"], ["pdf-lib"],
    ["node:crypto"], the empty string and [undefined] are not. *)
Theorem isLocalImport_classifies :
  (forall v : JS.value, isLocalImport v = Normal true <-> Local v) /\
  isLocalImport (Str "./a") = Normal true /\
  isLocalImport (Str "../a/b") = Normal true /\
  isLocalImport (Str "fs") = Normal false /\
  isLocalImport (Str "pdf-lib") = Normal false /\
  isLocalImport (Str "node:crypto") = Normal false /\
  isLocalImport (Str "") = Normal false /\
  isLocalImport undefined = Normal false.
Proof.
  split; [exact isLocalImport_Local | repeat split; reflexivity].
Qed.

(** C10. The bare specifiers ["."] and [".."] are not local, so a static
    import, a [require] call and a dynamic import of either one complete
    without a report. *)
Theorem bare_dot_specifiers_pass :
  let quiet (n : ESTree.node) :=
    forall (parent : option ESTree.node) (ctx : context),
      enter create (Visit n parent) ctx = Normal (tt, ctx) in
  forall (specifiers more : list ESTree.node),
  (isLocalImport (Str ".") = Normal false /\
   quiet (ESTree.ImportDeclaration specifiers (ESTree.Literal (Str "."))) /\
   quiet (ESTree.CallExpression (ESTree.Identifier "require")
            (ESTree.Literal (Str ".") :: more)) /\
   quiet (ESTree.ImportExpression (ESTree.Literal (Str ".")))) /\
  (isLocalImport (Str "..") = Normal false /\
   quiet (ESTree.ImportDeclaration specifiers (ESTree.Literal (Str ".."))) /\
   quiet (ESTree.CallExpression (ESTree.Identifier "require")
            (ESTree.Literal (Str "..") :: more)) /\
   quiet (ESTree.ImportExpression (ESTree.Literal (Str "..")))).
Proof.
  intros quiet specifiers more. unfold quiet.
  repeat split; intros; reflexivity.
Qed.

End ImportClassification.

Section ImportMechanisms.
Import no_local_imports.

Lemma lift_isLocalImport_true (v : JS.value) (k : bool -> M unit) (ctx : context) :
  isLocalImport v = Normal true ->
  bind (lift (isLocalImport v)) k ctx = k true ctx.
Proof. intros H. unfold bind, lift. now rewrite H. Qed.

(** C5. Each import mechanism reports a local specifier under its own
    message key, with the specifier as [data.source]: [noLocalImport] for
    a static import, [noLocalRequire] for a [require] call whose first
    argument is the string literal, [noLocalDynamicImport] for a dynamic
    import of the string literal. *)
Theorem local_specifier_message_keys
    (s : string) (specifiers more : list ESTree.node)
    (parent : option ESTree.node) (ctx : context)
    (Hlocal : Local (Str s)) :
  let static := Visit (ESTree.ImportDeclaration specifiers (ESTree.Literal (Str s))) parent in
  let required :=
    Visit (ESTree.CallExpression (ESTree.Identifier "require")
             (ESTree.Literal (Str s) :: more)) parent in
  let dynamic := Visit (ESTree.ImportExpression (ESTree.Literal (Str s))) parent in
  enter create static ctx =
    Normal (tt, (ctx ++ [ {| node := static; messageId := "noLocalImport";
                             data := [("source", Str s)] |} ])%list) /\
  enter create required ctx =
    Normal (tt, (ctx ++ [ {| node := required; messageId := "noLocalRequire";
                             data := [("source", Str s)] |} ])%list) /\
  enter create dynamic ctx =
    Normal (tt, (ctx ++ [ {| node := dynamic; messageId := "noLocalDynamicImport";
                             data := [("source", Str s)] |} ])%list).
Proof.
  apply isLocalImport_Local in Hlocal. intros static required dynamic.
  repeat split.
  - unfold enter, static; simpl. unfold ImportDeclaration.
    unfold bind at 1; simpl.
    now rewrite lift_isLocalImport_true.
  - unfold enter, required; simpl. unfold CallExpression.
    unfold bind at 1; simpl. unfold bind at 1; simpl. unfold bind at 1; simpl.
    now rewrite lift_isLocalImport_true.
  - unfold enter, dynamic; simpl. unfold ImportExpression.
    unfold bind at 1; simpl.
    now rewrite lift_isLocalImport_true.
Qed.

Lemma local_specifier_message_keys_witness :
  Local (Str "../../js/utils.js") /\
  enter create
    (Visit (ESTree.ImportDeclaration [] (ESTree.Literal (Str "../../js/utils.js")))
       (Some (ESTree.Program []))) [] =
  Normal (tt, [ {| node := Visit (ESTree.ImportDeclaration []
                                    (ESTree.Literal (Str "../../js/utils.js")))
                             (Some (ESTree.Program []));
                   messageId := "noLocalImport";
                   data := [("source", Str "../../js/utils.js")] |} ]).
Proof.
  assert (H : Local (Str "../../js/utils.js")).
  { exists "../../js/utils.js". split; [reflexivity|]. split; [discriminate|].
    right. exists "../js/utils.js". reflexivity. }
  split; [exact H|].
  exact (proj1 (local_specifier_message_keys "../../js/utils.js" [] []
                  (Some (ESTree.Program [])) [] H)).
Defined.

(** X5. A [require] whose first argument is not a [Literal] node, and a
    dynamic import whose source is not one, complete without a report. *)
Lemma non_literal_specifier_passes
    (arg : ESTree.node) (more : list ESTree.node)
    (parent : option ESTree.node) (ctx : context) :
  ESTree.type arg <> "Literal" ->
  enter create
    (Visit (ESTree.CallExpression (ESTree.Identifier "require") (arg :: more)) parent)
    ctx = Normal (tt, ctx) /\
  enter create (Visit (ESTree.ImportExpression arg) parent) ctx = Normal (tt, ctx).
Proof.
  intros H. apply String.eqb_neq in H.
  split; unfold enter; simpl.
  - unfold CallExpression, bind; simpl. now rewrite H.
  - unfold ImportExpression, bind; simpl. now rewrite H.
Qed.

Lemma non_literal_specifier_passes_witness :
  ESTree.type (ESTree.Other "TemplateLiteral" []) <> "Literal" /\
  enter create
    (Visit (ESTree.CallExpression (ESTree.Identifier "require")
              [ESTree.Other "TemplateLiteral" []]) None) [] =
  Normal (tt, []).
Proof.
  assert (H : ESTree.type (ESTree.Other "TemplateLiteral" []) <> "Literal")
    by discriminate.
  split; [exact H|].
  exact (proj1 (non_literal_specifier_passes (ESTree.Other "TemplateLiteral" [])
                  [] None [] H)).
Defined.

(** [require(someVariable)] completes without a report. *)
Example require_someVariable_passes (parent : option ESTree.node) (ctx : context) :
  enter create (Visit Examples.require_someVariable parent) ctx = Normal (tt, ctx).
Proof. reflexivity. Qed.

(** C6. [require(42)] and [import(true)] are well-formed trees on which
    the callbacks of [no-local-imports] throw: the literal's value is
    truthy and has no [startsWith] method. *)
Theorem require_non_string_literal_throws
    (parent : option ESTree.node) (ctx : context) :
  enter create (Visit Examples.require_42 parent) ctx =
    Throw (TypeError "source.startsWith is not a function") /\
  enter create (Visit Examples.import_true parent) ctx =
    Throw (TypeError "source.startsWith is not a function").
Proof. split; reflexivity. Qed.

(** C7. At [require(42)] the [CallExpression] callback of
    [no-local-imports] has no classification outcome: it neither completes
    without a report nor completes with one. *)
Theorem import_callback_without_outcome
    (parent : option ESTree.node) (ctx : context) :
  let n := Visit Examples.require_42 parent in
  CallExpression n ctx <> Normal (tt, ctx) /\
  (forall d : descriptor, CallExpression n ctx <> Normal (tt, (ctx ++ [d])%list)).
Proof. split; [| intros d]; discriminate. Qed.

End ImportMechanisms.

(* ================================================================== *)
(** * Logic detection *)
(* ================================================================== *)

Section LogicDetection.
Import no_logic_in_ffi.

(** C2. A function declaration whose immediate parent is neither an
    export-named nor an export-default declaration gets exactly one
    [noHelperFunctions] report, whose [data.name] is the function's name,
    or ["anonymous"] when the declaration has no identifier; one whose
    immediate parent is such an export declaration gets none. *)
Theorem FunctionDeclaration_helper_report
    (id : option ESTree.node) (params : list ESTree.node)
    (body p : ESTree.node) (ctx : context) :
  let fn := Visit (ESTree.FunctionDeclaration id params body) (Some p) in
  let helper (name : string) :=
    {| node := fn; messageId := "noHelperFunctions";
       data := [("name", Str name)] |} in
  (ESTree.type p <> "ExportNamedDeclaration" /\
   ESTree.type p <> "ExportDefaultDeclaration" ->
     (forall f : string, id = Some (ESTree.Identifier f) -> f <> "" ->
        enter create fn ctx = Normal (tt, (ctx ++ [helper f])%list)) /\
     (id = None ->
        enter create fn ctx = Normal (tt, (ctx ++ [helper "anonymous"])%list))) /\
  (ESTree.type p = "ExportNamedDeclaration" \/
   ESTree.type p = "ExportDefaultDeclaration" ->
     enter create fn ctx = Normal (tt, ctx)).
Proof.
  intros fn helper. unfold enter, fn; simpl.
  unfold FunctionDeclaration, bind; simpl. split.
  - intros [Hn Hd].
    apply String.eqb_neq in Hn. apply String.eqb_neq in Hd.
    rewrite Hn, Hd. simpl. split.
    + intros f -> Hf. unfold id_name, JS.or; simpl.
      apply String.eqb_neq in Hf. now rewrite Hf.
    + intros ->. reflexivity.
  - intros [H | H]; apply String.eqb_eq in H; rewrite H; simpl.
    + reflexivity.
    + now rewrite andb_false_r.
Qed.

Lemma FunctionDeclaration_helper_report_witness :
  (ESTree.type (ESTree.Program []) <> "ExportNamedDeclaration" /\
   ESTree.type (ESTree.Program []) <> "ExportDefaultDeclaration") /\
  "helper" <> "" /\
  enter create (Visit Examples.function_helper (Some (ESTree.Program []))) [] =
  Normal (tt, [ {| node := Visit Examples.function_helper (Some (ESTree.Program []));
                   messageId := "noHelperFunctions";
                   data := [("name", Str "helper")] |} ]).
Proof.
  assert (Hp : ESTree.type (ESTree.Program []) <> "ExportNamedDeclaration" /\
               ESTree.type (ESTree.Program []) <> "ExportDefaultDeclaration")
    by (split; discriminate).
  assert (Hf : "helper" <> "") by discriminate.
  split; [exact Hp|]. split; [exact Hf|].
  exact (proj1 (proj1 (FunctionDeclaration_helper_report
                         (Some (ESTree.Identifier "helper"))
                         [ESTree.Identifier "x"] (ESTree.BlockStatement [])
                         (ESTree.Program []) []) Hp)
           "helper" eq_refl Hf).
Defined.

(** C3. A call [<expr>.<name>(...)] gets exactly one [noArrayMethods]
    report with [data.method] equal to [<name>] when [<name>] is one of
    map, filter, reduce, findIndex, find, some, every, flatMap, and no
    report for any other [<name>]. *)
Theorem CallExpression_array_method_report
    (object : ESTree.node) (name : string) (optional : bool)
    (args : list ESTree.node) (parent : option ESTree.node) (ctx : context) :
  let call :=
    Visit (ESTree.CallExpression
             (ESTree.MemberExpression object (ESTree.Identifier name) false optional)
             args) parent in
  let methods :=
    ["map"; "filter"; "reduce"; "findIndex"; "find"; "some"; "every"; "flatMap"] in
  (In name methods ->
     enter create call ctx =
     Normal (tt, (ctx ++ [ {| node := call; messageId := "noArrayMethods";
                              data := [("method", Str name)] |} ])%list)) /\
  (~ In name methods -> enter create call ctx = Normal (tt, ctx)).
Proof.
  intros call methods.
  assert (Hrun : enter create call ctx =
                 if JS.includes ARRAY_METHODS (Str name)
                 then Normal (tt, (ctx ++ [ {| node := call; messageId := "noArrayMethods";
                                               data := [("method", Str name)] |} ])%list)
                 else Normal (tt, ctx)).
  { unfold enter, call; simpl. unfold CallExpression, bind; simpl.
    destruct (_ || _); reflexivity. }
  rewrite Hrun.
  pose proof (includes_iff ARRAY_METHODS name) as Hiff.
  destruct (JS.includes ARRAY_METHODS (Str name)); split.
  - reflexivity.
  - intros Hn. destruct Hn. now apply Hiff.
  - intros Hin. apply Hiff in Hin. discriminate Hin.
  - reflexivity.
Qed.

Lemma CallExpression_array_method_report_witness :
  In "map" ["map"; "filter"; "reduce"; "findIndex"; "find"; "some"; "every"; "flatMap"] /\
  ~ In "push" ["map"; "filter"; "reduce"; "findIndex"; "find"; "some"; "every"; "flatMap"] /\
  enter create (Visit Examples.x_map_f None) [] =
    Normal (tt, [ {| node := Visit Examples.x_map_f None;
                     messageId := "noArrayMethods";
                     data := [("method", Str "map")] |} ]) /\
  enter create
    (Visit (ESTree.CallExpression
              (ESTree.MemberExpression (ESTree.Identifier "x")
                 (ESTree.Identifier "push") false false) []) None) [] =
    Normal (tt, []).
Proof.
  assert (Hin : In "map" ["map"; "filter"; "reduce"; "findIndex"; "find";
                          "some"; "every"; "flatMap"]) by (simpl; tauto).
  assert (Hout : ~ In "push" ["map"; "filter"; "reduce"; "findIndex"; "find";
                              "some"; "every"; "flatMap"]).
  { simpl. intros H.
    repeat (destruct H as [H | H]; [discriminate H|]). exact H. }
  split; [exact Hin|]. split; [exact Hout|]. split.
  - exact (proj1 (CallExpression_array_method_report (ESTree.Identifier "x") "map"
                    false [ESTree.Identifier "f"] None []) Hin).
  - exact (proj2 (CallExpression_array_method_report (ESTree.Identifier "x") "push"
                    false [] None []) Hout).
Defined.

(** X6. A member call whose property node is not an [Identifier] (a string
    literal key, a private name, any other expression) gets no report. *)
Lemma non_identifier_property_passes
    (object prop : ESTree.node) (computed optional : bool)
    (args : list ESTree.node) (parent : option ESTree.node) (ctx : context) :
  ESTree.type prop <> "Identifier" ->
  enter create
    (Visit (ESTree.CallExpression
              (ESTree.MemberExpression object prop computed optional) args) parent)
    ctx = Normal (tt, ctx).
Proof.
  intros H. apply String.eqb_neq in H.
  unfold enter; simpl. unfold CallExpression, bind; simpl. now rewrite H.
Qed.

Lemma non_identifier_property_passes_witness :
  ESTree.type (ESTree.PrivateIdentifier "map") <> "Identifier" /\
  enter create
    (Visit (ESTree.CallExpression
              (ESTree.MemberExpression (ESTree.Identifier "x")
                 (ESTree.PrivateIdentifier "map") false false)
              [ESTree.Identifier "f"]) None) [] =
  Normal (tt, []).
Proof.
  assert (H : ESTree.type (ESTree.PrivateIdentifier "map") <> "Identifier")
    by discriminate.
  split; [exact H|].
  exact (non_identifier_property_passes (ESTree.Identifier "x")
           (ESTree.PrivateIdentifier "map") false false
           [ESTree.Identifier "f"] None [] H).
Defined.

(** [x["map"](f)] completes without a report. *)
Example x_literal_map_f_passes (parent : option ESTree.node) (ctx : context) :
  enter create (Visit Examples.x_literal_map_f parent) ctx = Normal (tt, ctx).
Proof. reflexivity. Qed.

(** C9. [x[map](f)], a computed access whose key is the identifier [map],
    gets a [noArrayMethods] report naming the method [map]: the callback
    does not read the [computed] flag. *)
Theorem computed_identifier_key_is_reported
    (parent : option ESTree.node) (ctx : context) :
  let call := Visit Examples.x_computed_map_f parent in
  enter create call ctx =
  Normal (tt, (ctx ++ [ {| node := call; messageId := "noArrayMethods";
                           data := [("method", Str "map")] |} ])%list).
Proof. reflexivity. Qed.

(** C4. Every [if] statement, every loop of the five forms, every
    conditional expression and every [switch] statement gets exactly one
    report under its message key, whatever its fields and its parent. *)
Theorem branching_nodes_report_once
    (parent : option ESTree.node) (ctx : context) :
  let reported (n : ESTree.node) (key : string) :=
    enter create (Visit n parent) ctx =
    Normal (tt, (ctx ++ [ {| node := Visit n parent; messageId := key;
                             data := [] |} ])%list) in
  (forall test consequent alternate,
     reported (ESTree.IfStatement test consequent alternate) "noIfStatements") /\
  (forall init test update body,
     reported (ESTree.ForStatement init test update body) "noLoops") /\
  (forall left right body,
     reported (ESTree.ForInStatement left right body) "noLoops") /\
  (forall left right body,
     reported (ESTree.ForOfStatement left right body) "noLoops") /\
  (forall test body,
     reported (ESTree.WhileStatement test body) "noLoops") /\
  (forall body test,
     reported (ESTree.DoWhileStatement body test) "noLoops") /\
  (forall test consequent alternate,
     reported (ESTree.ConditionalExpression test consequent alternate) "noTernary") /\
  (forall discriminant cases,
     reported (ESTree.SwitchStatement discriminant cases) "noSwitch").
Proof.
  intros reported. unfold reported. repeat split; intros; reflexivity.
Qed.

End LogicDetection.

(* ================================================================== *)
(** * The unused message key *)
(* ================================================================== *)

Section UnusedKey.

Lemma reports_under (ids : list string) (f : callback) :
  at_most_one_report ids f ->
  forall (n : visited) (ctx ctx' : context),
    f n ctx = Normal (tt, ctx') ->
    exists ds, ctx' = (ctx ++ ds)%list /\
               Forall (fun d => In (messageId d) ids) ds.
Proof.
  intros Hf n ctx ctx' Hrun.
  destruct (Hf n ctx) as [[e He] | [Hn | [d [Hd [_ Hin]]]]].
  - congruence.
  - exists []. rewrite app_nil_r. split; [congruence | constructor].
  - exists [d]. split; [congruence | now repeat constructor].
Qed.

(** C8. [noComplexCatch] is a key of the message catalog of
    [no-logic-in-ffi], and no callback of either rule ever reports under
    it: what a visit adds to the context never carries that key. *)
Theorem noComplexCatch_never_reported :
  In "noComplexCatch" (map fst no_logic_in_ffi.messages) /\
  forall ls : listeners,
    ls = no_logic_in_ffi.create \/ ls = no_local_imports.create ->
    forall (n : visited) (ctx ctx' : context),
      enter ls n ctx = Normal (tt, ctx') ->
      exists ds, ctx' = (ctx ++ ds)%list /\
                 Forall (fun d => messageId d <> "noComplexCatch") ds.
Proof.
  split; [simpl; tauto|].
  intros ls Hls n ctx ctx' Hrun.
  assert (H : exists ids, ~ In "noComplexCatch" ids /\ at_most_one_report ids (enter ls)).
  { destruct Hls as [-> | ->].
    - exists logic_keys. split; [| exact no_logic_in_ffi_at_most_one_report].
      simpl. intros H. repeat (destruct H as [H | H]; [discriminate H|]). exact H.
    - exists import_keys. split; [| exact no_local_imports_at_most_one_report].
      simpl. intros H. repeat (destruct H as [H | H]; [discriminate H|]). exact H. }
  destruct H as [ids [Hnot Hone]].
  destruct (reports_under ids _ Hone n ctx ctx' Hrun) as [ds [-> Hall]].
  exists ds. split; [reflexivity|].
  eapply Forall_impl; [| exact Hall].
  intros d Hin Heq. simpl in Hin. rewrite Heq in Hin. exact (Hnot Hin).
Qed.

Lemma noComplexCatch_never_reported_witness :
  enter no_logic_in_ffi.create (Visit Examples.x_map_f None) [] =
    Normal (tt, [ {| node := Visit Examples.x_map_f None;
                     messageId := "noArrayMethods";
                     data := [("method", Str "map")] |} ]) /\
  exists ds,
    [ {| node := Visit Examples.x_map_f None; messageId := "noArrayMethods";
         data := [("method", Str "map")] |} ] = ([] ++ ds)%list /\
    Forall (fun d => messageId d <> "noComplexCatch") ds.
Proof.
  split; [reflexivity|].
  exact (proj2 noComplexCatch_never_reported no_logic_in_ffi.create
           (or_introl eq_refl) (Visit Examples.x_map_f None) [] _ eq_refl).
Defined.

End UnusedKey.

(* ================================================================== *)
(** * Outcomes of [isLocalImport] beyond the local case *)
(* ================================================================== *)

Section ClassificationOutcomes.
Import no_local_imports.

Lemma not_string_dec (v : JS.value) :
  (exists s, v = Str s) \/ (forall s, v <> Str s).
Proof.
  destruct v; try (right; intros s' H; discriminate H).
  left. now exists s.
Qed.

Lemma isLocalImport_false_of (v : JS.value) :
  ToBoolean v = false \/ (exists s, v = Str s /\ ~ Local v) ->
  isLocalImport v = Normal false.
Proof.
  intros [Ht | [s [-> HL]]].
  - unfold isLocalImport. now rewrite Ht.
  - rewrite isLocalImport_string.
    destruct (JS.startsWith s "./" || JS.startsWith s "../") eqn:E; [|reflexivity].
    destruct HL. apply isLocalImport_Local. rewrite isLocalImport_string. now rewrite E.
Qed.

(** X1. [isLocalImport] throws exactly on the truthy values that are not
    strings, and answers [false] exactly on the falsy values and on the
    strings that are not local. *)
Theorem isLocalImport_other_outcomes (v : JS.value) :
  ((exists e, isLocalImport v = Throw e) <->
   (ToBoolean v = true /\ forall s, v <> Str s)) /\
  (isLocalImport v = Normal false <->
   (ToBoolean v = false \/ exists s, v = Str s /\ ~ Local v)).
Proof.
  split; split.
  - intros [e He]. destruct (ToBoolean v) eqn:Ht.
    + split; [reflexivity|]. intros s ->.
      rewrite isLocalImport_string in He. discriminate He.
    + unfold isLocalImport in He. rewrite Ht in He. discriminate He.
  - intros [Ht Hs]. eexists. now apply isLocalImport_throws.
  - intros H. destruct (ToBoolean v) eqn:Ht; [right | now left].
    destruct (not_string_dec v) as [[s ->] | Hs].
    + exists s. split; [reflexivity|]. intros HL.
      apply isLocalImport_Local in HL. congruence.
    + rewrite (isLocalImport_throws v Ht Hs) in H. discriminate H.
  - exact (isLocalImport_false_of v).
Qed.

End ClassificationOutcomes.

(* ================================================================== *)
(** * Literal specifiers that are not local *)
(* ================================================================== *)

Section LiteralSpecifiers.
Import no_local_imports.

Lemma lift_isLocalImport (v : JS.value) (c : completion bool)
    (k : bool -> M unit) (ctx : context) :
  isLocalImport v = c ->
  bind (lift (isLocalImport v)) k ctx =
  match c with
  | Normal b => k b ctx
  | Throw e => Throw e
  end.
Proof. intros <-. unfold bind, lift. now destruct (isLocalImport v). Qed.

(** X2. A literal specifier that is falsy ([""], [0], [null], [false]) or a
    string that is not local passes all three import mechanisms without a
    report. *)
Theorem non_local_literal_passes
    (v : JS.value) (specifiers more : list ESTree.node)
    (parent : option ESTree.node) (ctx : context) :
  ToBoolean v = false \/ (exists s, v = Str s /\ ~ Local v) ->
  enter create
    (Visit (ESTree.ImportDeclaration specifiers (ESTree.Literal v)) parent) ctx =
    Normal (tt, ctx) /\
  enter create
    (Visit (ESTree.CallExpression (ESTree.Identifier "require")
              (ESTree.Literal v :: more)) parent) ctx =
    Normal (tt, ctx) /\
  enter create (Visit (ESTree.ImportExpression (ESTree.Literal v)) parent) ctx =
    Normal (tt, ctx).
Proof.
  intros H. apply isLocalImport_false_of in H.
  repeat split; unfold enter; simpl.
  - unfold ImportDeclaration. unfold bind at 1; simpl.
    now rewrite (lift_isLocalImport _ _ _ _ H).
  - unfold CallExpression. do 3 (unfold bind at 1; simpl).
    now rewrite (lift_isLocalImport _ _ _ _ H).
  - unfold ImportExpression. unfold bind at 1; simpl.
    now rewrite (lift_isLocalImport _ _ _ _ H).
Qed.

Lemma non_local_literal_passes_witness :
  (ToBoolean (Str "node:crypto") = false \/
   exists s, Str "node:crypto" = Str s /\ ~ Local (Str "node:crypto")) /\
  enter create
    (Visit (ESTree.CallExpression (ESTree.Identifier "require")
              [ESTree.Literal (Str "node:crypto")]) None) [] =
  Normal (tt, []).
Proof.
  assert (H : ToBoolean (Str "node:crypto") = false \/
              exists s, Str "node:crypto" = Str s /\ ~ Local (Str "node:crypto")).
  { right. exists "node:crypto". split; [reflexivity|].
    intros HL. apply isLocalImport_Local in HL. discriminate HL. }
  split; [exact H|].
  exact (proj1 (proj2 (non_local_literal_passes (Str "node:crypto") [] [] None [] H))).
Defined.

(** X3. A [require] call or a dynamic import whose literal is truthy and not a
    string (a non-zero number or bigint, [true], a RegExp) throws a
    [TypeError], whatever was reported before. *)
Theorem truthy_non_string_literal_throws
    (v : JS.value) (more : list ESTree.node)
    (parent : option ESTree.node) (ctx : context) :
  ToBoolean v = true -> (forall s, v <> Str s) ->
  enter create
    (Visit (ESTree.CallExpression (ESTree.Identifier "require")
              (ESTree.Literal v :: more)) parent) ctx =
    Throw (TypeError "source.startsWith is not a function") /\
  enter create (Visit (ESTree.ImportExpression (ESTree.Literal v)) parent) ctx =
    Throw (TypeError "source.startsWith is not a function").
Proof.
  intros Ht Hs. pose proof (isLocalImport_throws v Ht Hs) as H.
  split; unfold enter; simpl.
  - unfold CallExpression. do 3 (unfold bind at 1; simpl).
    now rewrite (lift_isLocalImport _ _ _ _ H).
  - unfold ImportExpression. unfold bind at 1; simpl.
    now rewrite (lift_isLocalImport _ _ _ _ H).
Qed.

Lemma truthy_non_string_literal_throws_witness :
  ToBoolean (RegExp "x" "g") = true /\
  (forall s, RegExp "x" "g" <> Str s) /\
  enter create
    (Visit (ESTree.ImportExpression (ESTree.Literal (RegExp "x" "g")))
       (Some (ESTree.Program []))) [] =
  Throw (TypeError "source.startsWith is not a function").
Proof.
  assert (Hs : forall s, RegExp "x" "g" <> Str s) by (intros s H; discriminate H).
  split; [reflexivity|]. split; [exact Hs|].
  exact (proj2 (truthy_non_string_literal_throws (RegExp "x" "g") []
                  (Some (ESTree.Program [])) [] eq_refl Hs)).
Defined.

Lemma strict_eq_string_true (v : JS.value) (s : string) :
  strict_eq_string v s = true <-> v = Str s.
Proof.
  destruct v; simpl; try (split; [discriminate | intros H; discriminate H]).
  rewrite String.eqb_eq. split; [now intros -> | now intros [= ->]].
Qed.

(** X4. Only a call whose callee is the identifier [require] is inspected: a
    call of anything else (another function, [module.require], a private
    name) passes without a report and without reading its arguments, and
    so does [require()] with no argument. *)
Theorem only_require_calls_are_inspected
    (c : ESTree.node) (args : list ESTree.node)
    (parent : option ESTree.node) (ctx : context) :
  (ESTree.type c <> "Identifier" \/ ESTree.name c <> Str "require" ->
   enter create (Visit (ESTree.CallExpression c args) parent) ctx =
   Normal (tt, ctx)) /\
  enter create
    (Visit (ESTree.CallExpression (ESTree.Identifier "require") []) parent) ctx =
  Normal (tt, ctx).
Proof.
  split; [| reflexivity].
  intros H. unfold enter; simpl. unfold CallExpression. unfold bind at 1; simpl.
  assert (E : (ESTree.type c =? "Identifier") &&
              strict_eq_string (ESTree.name c) "require" = false).
  { apply andb_false_iff. destruct H as [H | H].
    - left. now apply String.eqb_neq.
    - right. destruct (strict_eq_string (ESTree.name c) "require") eqn:E; [|reflexivity].
      apply strict_eq_string_true in E. contradiction. }
  now rewrite E.
Qed.

Lemma only_require_calls_are_inspected_witness :
  (ESTree.type (ESTree.Identifier "load") <> "Identifier" \/
   ESTree.name (ESTree.Identifier "load") <> Str "require") /\
  enter create
    (Visit (ESTree.CallExpression (ESTree.Identifier "load")
              [ESTree.Literal (Str "./helper.js")]) None) [] =
  Normal (tt, []).
Proof.
  assert (H : ESTree.type (ESTree.Identifier "load") <> "Identifier" \/
              ESTree.name (ESTree.Identifier "load") <> Str "require")
    by (right; discriminate).
  split; [exact H|].
  exact (proj1 (only_require_calls_are_inspected (ESTree.Identifier "load")
                  [ESTree.Literal (Str "./helper.js")] None []) H).
Defined.

End LiteralSpecifiers.

(* ================================================================== *)
(** * From a report back to the node *)
(* ================================================================== *)

Section Inversion.

Lemma app_one_inj {A : Type} (l : list A) (x y : A) :
  (l ++ [x])%list = (l ++ [y])%list -> x = y.
Proof. intros H. apply app_inv_head in H. now injection H. Qed.

Lemma app_one_neq {A : Type} (l : list A) (x : A) : l <> (l ++ [x])%list.
Proof.
  intros H. apply (f_equal (@List.length A)) in H.
  rewrite length_app in H. simpl in H. lia.
Qed.

Lemma listener_Some (key : string) (ls : listeners) (f : callback) :
  listener key ls = Some f -> In (key, f) ls.
Proof.
  induction ls as [|[k g] ls IH]; simpl; [discriminate|].
  destruct (k =? key) eqn:E.
  - intros [= ->]. apply String.eqb_eq in E. subst. now left.
  - intros H. right. auto.
Qed.

Lemma listener_None (key : string) (ls : listeners) :
  ~ In key (map fst ls) -> listener key ls = None.
Proof.
  induction ls as [|[k g] ls IH]; simpl; [reflexivity|].
  intros H. destruct (k =? key) eqn:E.
  - apply String.eqb_eq in E. destruct H. now left.
  - apply IH. intros Hin. apply H. now right.
Qed.

Lemma includes_name (l : list string) (p : ESTree.node) :
  JS.includes l (ESTree.name p) = true ->
  exists m, ESTree.name p = Str m /\ In m l.
Proof.
  intros H. destruct (not_string_dec (ESTree.name p)) as [[m Hm] | Hn].
  - exists m. split; [exact Hm|]. rewrite Hm in H. now apply includes_iff.
  - rewrite (includes_not_string l _ Hn) in H. discriminate H.
Qed.

Lemma helper_name_nonempty (n : ESTree.node) :
  exists s, s <> "" /\
    JS.or (no_logic_in_ffi.id_name n) (Str "anonymous") = Str s.
Proof.
  unfold JS.or.
  destruct (ToBoolean (no_logic_in_ffi.id_name n)) eqn:Ht.
  - unfold no_logic_in_ffi.id_name in *.
    destruct (ESTree.id n) as [i|]; [| discriminate Ht].
    destruct i; simpl in *; try discriminate Ht.
    all: exists name; split; [| reflexivity].
    all: intros ->; discriminate Ht.
  - exists "anonymous". split; [discriminate | reflexivity].
Qed.

End Inversion.

(** Settles what is left of a run that was assumed to end in one report. *)
Ltac settle H :=
  first [ discriminate H
        | exfalso; injection H as H; exact (app_one_neq _ _ H)
        | injection H as H; apply app_one_inj in H; subst ].

Section ReportsOfNoLocalImports.
Import no_local_imports.

(** X7. Every report of [no-local-imports] comes from a local specifier: it
    is made on the visited node, its [data.source] is a string that
    starts with [./] or [../], and that string is the value of the static
    import's source, of the [Literal] first argument of a call of the
    identifier [require], or of the [Literal] source of a dynamic import,
    under the message key of that mechanism. *)
Theorem no_local_imports_report_sound
    (n : visited) (ctx : context) (d : descriptor) :
  enter create n ctx = Normal (tt, (ctx ++ [d])%list) ->
  exists s : string,
    Local (Str s) /\ node d = n /\ data d = [("source", Str s)] /\
    ((messageId d = "noLocalImport" /\
      ESTree.type (self n) = "ImportDeclaration" /\
      exists src, ESTree.source (self n) = Some src /\ ESTree.value src = Str s) \/
     (messageId d = "noLocalRequire" /\
      ESTree.type (self n) = "CallExpression" /\
      exists c a0 more,
        ESTree.callee (self n) = Some c /\
        ESTree.type c = "Identifier" /\ ESTree.name c = Str "require" /\
        ESTree.arguments (self n) = Some (a0 :: more) /\
        ESTree.type a0 = "Literal" /\ ESTree.value a0 = Str s) \/
     (messageId d = "noLocalDynamicImport" /\
      ESTree.type (self n) = "ImportExpression" /\
      exists src, ESTree.source (self n) = Some src /\
                  ESTree.type src = "Literal" /\ ESTree.value src = Str s)).
Proof.
  unfold enter.
  destruct (listener _ _) as [f|] eqn:Hf.
  2: { unfold ret. intros H. settle H. }
  apply listener_Some in Hf. simpl in Hf.
  destruct Hf as [Hf | [Hf | [Hf | []]]]; injection Hf as Ht <-; symmetry in Ht.
  - unfold ImportDeclaration. run_callback; intros H; settle H.
    match goal with
    | E : isLocalImport _ = Normal true |- _ =>
        pose proof (proj1 (isLocalImport_Local _) E) as HL
    end.
    destruct HL as [s [Hs HL]]. exists s. rewrite Hs; simpl.
    split; [exists s; tauto|]. repeat split; try reflexivity.
    left. repeat split; try assumption. eauto.
  - unfold CallExpression. run_callback; intros H; settle H.
    match goal with
    | E : isLocalImport _ = Normal true |- _ =>
        pose proof (proj1 (isLocalImport_Local _) E) as HL
    end.
    destruct HL as [s [Hs HL]]. exists s. rewrite Hs; simpl.
    split; [exists s; tauto|]. repeat split; try reflexivity.
    right; left.
    match goal with
    | E : _ && _ = true |- _ => apply andb_true_iff in E; destruct E as [E1 E2]
    end.
    apply String.eqb_eq in E1. apply strict_eq_string_true in E2.
    match goal with
    | E : nth_error ?l 0 = Some ?a |- _ =>
        destruct l as [|a' more]; simpl in E; [discriminate E | injection E as ->]
    end.
    match goal with
    | E : (ESTree.type _ =? "Literal") = true |- _ => apply String.eqb_eq in E
    end.
    repeat split; try assumption. eauto 10.
  - unfold ImportExpression. run_callback; intros H; settle H.
    match goal with
    | E : isLocalImport _ = Normal true |- _ =>
        pose proof (proj1 (isLocalImport_Local _) E) as HL
    end.
    destruct HL as [s [Hs HL]]. exists s. rewrite Hs; simpl.
    split; [exists s; tauto|]. repeat split; try reflexivity.
    right; right.
    match goal with
    | E : (ESTree.type _ =? "Literal") = true |- _ => apply String.eqb_eq in E
    end.
    repeat split; try assumption. eauto.
Qed.

End ReportsOfNoLocalImports.

Section ReportsOfNoLocalImportsWitness.
Import no_local_imports.

Lemma no_local_imports_report_sound_witness :
  let n := Visit (ESTree.ImportExpression (ESTree.Literal (Str "./helper.js")))
             (Some (ESTree.Program [])) in
  let d := {| node := n; messageId := "noLocalDynamicImport";
              data := [("source", Str "./helper.js")] |} in
  enter create n [] = Normal (tt, ([] ++ [d])%list) /\
  exists s : string, Local (Str s) /\ node d = n /\ data d = [("source", Str s)].
Proof.
  intros n d.
  assert (H : enter create n [] = Normal (tt, ([] ++ [d])%list)) by reflexivity.
  split; [exact H|].
  destruct (no_local_imports_report_sound n [] d H) as [s [HL [Hn [Hd _]]]].
  exists s. auto.
Defined.

End ReportsOfNoLocalImportsWitness.

Section ReportsOfNoLogicInFfi.
Import no_logic_in_ffi.

(** X8. Every report of [no-logic-in-ffi] is made on the visited node and is
    of one of three sorts: [noHelperFunctions] on a function declaration
    whose parent is not an export declaration, with a non-empty string as
    [data.name]; [noArrayMethods] on a call whose callee is a member
    expression with an identifier property named in [ARRAY_METHODS], that
    name being [data.method]; or a report without data whose key is the
    one registered for the node's type. *)
Theorem no_logic_in_ffi_report_sound
    (n : visited) (ctx : context) (d : descriptor) :
  enter create n ctx = Normal (tt, (ctx ++ [d])%list) ->
  node d = n /\
  ((messageId d = "noHelperFunctions" /\
    ESTree.type (self n) = "FunctionDeclaration" /\
    exists p s,
      parent n = Some p /\
      ESTree.type p <> "ExportNamedDeclaration" /\
      ESTree.type p <> "ExportDefaultDeclaration" /\
      s <> "" /\ data d = [("name", Str s)]) \/
   (messageId d = "noArrayMethods" /\
    ESTree.type (self n) = "CallExpression" /\
    exists c p m,
      ESTree.callee (self n) = Some c /\
      ESTree.type c = "MemberExpression" /\
      ESTree.property c = Some p /\
      ESTree.type p = "Identifier" /\ ESTree.name p = Str m /\
      In m ARRAY_METHODS /\ data d = [("method", Str m)]) \/
   (data d = [] /\
    In (ESTree.type (self n), messageId d)
       [ ("IfStatement", "noIfStatements");
         ("ForStatement", "noLoops");
         ("ForInStatement", "noLoops");
         ("ForOfStatement", "noLoops");
         ("WhileStatement", "noLoops");
         ("DoWhileStatement", "noLoops");
         ("ConditionalExpression", "noTernary");
         ("SwitchStatement", "noSwitch") ])).
Proof.
  unfold enter.
  destruct (listener _ _) as [f|] eqn:Hf.
  2: { unfold ret. intros H. settle H. }
  apply listener_Some in Hf. simpl in Hf.
  repeat (destruct Hf as [Hf | Hf]); try contradiction;
    injection Hf as Ht <-; symmetry in Ht.
  - unfold FunctionDeclaration. run_callback; intros H; settle H.
    split; [reflexivity|]. left. simpl.
    match goal with
    | E : _ && _ = true |- _ => apply andb_true_iff in E; destruct E as [E1 E2]
    end.
    apply negb_true_iff, String.eqb_neq in E1.
    apply negb_true_iff, String.eqb_neq in E2.
    destruct (helper_name_nonempty (self n)) as [s [Hs Hname]].
    rewrite Hname. repeat split; try assumption. eauto 10.
  - intros H; unfold IfStatement, report in H; settle H.
    split; [reflexivity|]. right; right. simpl. rewrite Ht. tauto.
  - intros H; unfold ForStatement, report in H; settle H.
    split; [reflexivity|]. right; right. simpl. rewrite Ht. tauto.
  - intros H; unfold ForInStatement, report in H; settle H.
    split; [reflexivity|]. right; right. simpl. rewrite Ht. tauto.
  - intros H; unfold ForOfStatement, report in H; settle H.
    split; [reflexivity|]. right; right. simpl. rewrite Ht. tauto.
  - intros H; unfold WhileStatement, report in H; settle H.
    split; [reflexivity|]. right; right. simpl. rewrite Ht. tauto.
  - intros H; unfold DoWhileStatement, report in H; settle H.
    split; [reflexivity|]. right; right. simpl. rewrite Ht. tauto.
  - intros H; unfold ConditionalExpression, report in H; settle H.
    split; [reflexivity|]. right; right. simpl. rewrite Ht. tauto.
  - intros H; unfold SwitchStatement, report in H; settle H.
    split; [reflexivity|]. right; right. simpl. rewrite Ht. tauto.
  - unfold CallExpression. run_callback; intros H; settle H.
    split; [reflexivity|]. right; left. simpl.
    match goal with
    | E : _ && _ = true |- _ => apply andb_true_iff in E; destruct E as [E1 E2]
    end.
    apply String.eqb_eq in E1.
    destruct (includes_name _ _ E2) as [m [Hm Hin]].
    match goal with
    | E : (ESTree.type _ =? "MemberExpression") = true |- _ =>
        apply String.eqb_eq in E
    end.
    rewrite Hm. repeat split; try assumption. eauto 12.
Qed.

Lemma no_logic_in_ffi_report_sound_witness :
  let n := Visit Examples.function_helper (Some (ESTree.BlockStatement [])) in
  let d := {| node := n; messageId := "noHelperFunctions";
              data := [("name", Str "helper")] |} in
  enter create n [] = Normal (tt, ([] ++ [d])%list) /\ node d = n.
Proof.
  intros n d.
  assert (H : enter create n [] = Normal (tt, ([] ++ [d])%list)) by reflexivity.
  split; [exact H|].
  exact (proj1 (no_logic_in_ffi_report_sound n [] d H)).
Defined.

End ReportsOfNoLogicInFfi.

(* ================================================================== *)
(** * What the rules leave alone, and how they combine *)
(* ================================================================== *)

Section Registration.

(** X9. A node whose type has no callback in a rule is passed by that rule
    without a report: [no-logic-in-ffi] looks at ten node types only (so
    arrow functions, function expressions, variable and export
    declarations, [try] statements and catch clauses are never flagged),
    [no-local-imports] at three. *)
Theorem unregistered_node_types_pass (n : visited) (ctx : context) :
  (~ In (ESTree.type (self n))
        [ "FunctionDeclaration"; "IfStatement"; "ForStatement";
          "ForInStatement"; "ForOfStatement"; "WhileStatement";
          "DoWhileStatement"; "ConditionalExpression"; "SwitchStatement";
          "CallExpression" ] ->
   enter no_logic_in_ffi.create n ctx = Normal (tt, ctx)) /\
  (~ In (ESTree.type (self n))
        [ "ImportDeclaration"; "CallExpression"; "ImportExpression" ] ->
   enter no_local_imports.create n ctx = Normal (tt, ctx)).
Proof.
  split; intros H; unfold enter; now rewrite listener_None.
Qed.

Lemma unregistered_node_types_pass_witness :
  let arrow :=
    Visit (ESTree.Other "ArrowFunctionExpression"
             [ESTree.Identifier "x"; Examples.x_map_f])
          (Some (ESTree.Other "VariableDeclarator" [])) in
  ~ In (ESTree.type (self arrow))
       [ "FunctionDeclaration"; "IfStatement"; "ForStatement";
         "ForInStatement"; "ForOfStatement"; "WhileStatement";
         "DoWhileStatement"; "ConditionalExpression"; "SwitchStatement";
         "CallExpression" ] /\
  enter no_logic_in_ffi.create arrow [] = Normal (tt, []).
Proof.
  intros arrow.
  assert (H : ~ In (ESTree.type (self arrow))
                [ "FunctionDeclaration"; "IfStatement"; "ForStatement";
                  "ForInStatement"; "ForOfStatement"; "WhileStatement";
                  "DoWhileStatement"; "ConditionalExpression"; "SwitchStatement";
                  "CallExpression" ]).
  { simpl. intros H. repeat (destruct H as [H | H]; [discriminate H|]). exact H. }
  split; [exact H|].
  exact (proj1 (unregistered_node_types_pass arrow []) H).
Defined.

(** What [no-logic-in-ffi] needs of a node to report on it. *)
Lemma logic_report_shape (n : visited) (ctx : context) (d : descriptor) :
  enter no_logic_in_ffi.create n ctx = Normal (tt, (ctx ++ [d])%list) ->
  In (ESTree.type (self n))
     [ "FunctionDeclaration"; "IfStatement"; "ForStatement";
       "ForInStatement"; "ForOfStatement"; "WhileStatement";
       "DoWhileStatement"; "ConditionalExpression"; "SwitchStatement" ] \/
  (ESTree.type (self n) = "CallExpression" /\
   exists c, ESTree.callee (self n) = Some c /\
             ESTree.type c = "MemberExpression").
Proof.
  unfold enter.
  destruct (listener _ _) as [f|] eqn:Hf.
  2: { unfold ret. intros H. settle H. }
  apply listener_Some in Hf. simpl in Hf.
  repeat (destruct Hf as [Hf | Hf]); try contradiction;
    injection Hf as Ht <-; symmetry in Ht.
  1-9: intros _; left; rewrite Ht; simpl; tauto.
  unfold no_logic_in_ffi.CallExpression. run_callback; intros H; settle H.
  right. split; [exact Ht|].
  match goal with
  | E : (ESTree.type _ =? "MemberExpression") = true |- _ =>
      apply String.eqb_eq in E
  end.
  eauto.
Qed.

(** What [no-local-imports] needs of a node to report on it. *)
Lemma import_report_shape (n : visited) (ctx : context) (d : descriptor) :
  enter no_local_imports.create n ctx = Normal (tt, (ctx ++ [d])%list) ->
  In (ESTree.type (self n)) [ "ImportDeclaration"; "ImportExpression" ] \/
  (ESTree.type (self n) = "CallExpression" /\
   exists c, ESTree.callee (self n) = Some c /\
             ESTree.type c = "Identifier").
Proof.
  unfold enter.
  destruct (listener _ _) as [f|] eqn:Hf.
  2: { unfold ret. intros H. settle H. }
  apply listener_Some in Hf. simpl in Hf.
  destruct Hf as [Hf | [Hf | [Hf | []]]]; injection Hf as Ht <-; symmetry in Ht.
  1, 3: intros _; left; rewrite Ht; simpl; tauto.
  unfold no_local_imports.CallExpression. run_callback; intros H; settle H.
  right. split; [exact Ht|].
  match goal with
  | E : _ && _ = true |- _ => apply andb_true_iff in E; destruct E as [E1 E2]
  end.
  apply String.eqb_eq in E1. eauto.
Qed.

(** X10. No node is reported by both rules: where one rule reports, the other
    completes without a report. Both look at call expressions, but one
    wants a member-expression callee and the other an identifier. *)
Theorem rules_report_on_different_nodes
    (n : visited) (ctx ctx' : context) (d : descriptor) :
  (enter no_logic_in_ffi.create n ctx = Normal (tt, (ctx ++ [d])%list) ->
   enter no_local_imports.create n ctx' = Normal (tt, ctx')) /\
  (enter no_local_imports.create n ctx = Normal (tt, (ctx ++ [d])%list) ->
   enter no_logic_in_ffi.create n ctx' = Normal (tt, ctx')).
Proof.
  split; intros H.
  - apply logic_report_shape in H. destruct H as [H | [Ht [c [Hc Hm]]]].
    + unfold enter. rewrite listener_None; [reflexivity|].
      simpl in H |- *. intros Hin.
      repeat (destruct H as [H | H]; [rewrite <- H in Hin;
        repeat (destruct Hin as [Hin | Hin]; [discriminate Hin|]); exact Hin |]).
      exact H.
    + unfold enter. rewrite Ht. simpl.
      unfold no_local_imports.CallExpression, bind, deref.
      rewrite Hc. simpl. rewrite Hm. reflexivity.
  - apply import_report_shape in H. destruct H as [H | [Ht [c [Hc Hi]]]].
    + unfold enter. rewrite listener_None; [reflexivity|].
      simpl in H |- *. intros Hin.
      repeat (destruct H as [H | H]; [rewrite <- H in Hin;
        repeat (destruct Hin as [Hin | Hin]; [discriminate Hin|]); exact Hin |]).
      exact H.
    + unfold enter. rewrite Ht. simpl.
      unfold no_logic_in_ffi.CallExpression, bind, deref.
      rewrite Hc. simpl. rewrite Hi. reflexivity.
Qed.

Lemma rules_report_on_different_nodes_witness :
  let n := Visit (ESTree.CallExpression (ESTree.Identifier "require")
                    [ESTree.Literal (Str "./helper.js")]) None in
  let d := {| node := n; messageId := "noLocalRequire";
              data := [("source", Str "./helper.js")] |} in
  enter no_local_imports.create n [] = Normal (tt, ([] ++ [d])%list) /\
  enter no_logic_in_ffi.create n [] = Normal (tt, []).
Proof.
  intros n d.
  assert (H : enter no_local_imports.create n [] = Normal (tt, ([] ++ [d])%list))
    by reflexivity.
  split; [exact H|].
  exact (proj2 (rules_report_on_different_nodes n [] [] d) H).
Defined.

End Registration.

(* ================================================================== *)
(** * Message keys and the context *)
(* ================================================================== *)

Section KeysAndContext.

(** X11. Every report of a rule is made under a key of that rule's own message
    catalog, so that the key always resolves to a message template. *)
Theorem reported_keys_are_declared
    (n : visited) (ctx : context) (d : descriptor) :
  (enter no_logic_in_ffi.create n ctx = Normal (tt, (ctx ++ [d])%list) ->
   In (messageId d) (map fst no_logic_in_ffi.messages)) /\
  (enter no_local_imports.create n ctx = Normal (tt, (ctx ++ [d])%list) ->
   In (messageId d) (map fst no_local_imports.messages)).
Proof.
  split; intros H.
  - destruct (no_logic_in_ffi_at_most_one_report n ctx)
      as [[e He] | [Hn | [d' [Hd [_ Hin]]]]].
    + congruence.
    + rewrite Hn in H. settle H.
    + rewrite Hd in H. settle H. simpl in Hin |- *. tauto.
  - destruct (no_local_imports_at_most_one_report n ctx)
      as [[e He] | [Hn | [d' [Hd [_ Hin]]]]].
    + congruence.
    + rewrite Hn in H. settle H.
    + rewrite Hd in H. settle H. simpl in Hin |- *. tauto.
Qed.

Lemma reported_keys_are_declared_witness :
  let n := Visit (ESTree.SwitchStatement (ESTree.Identifier "x") []) None in
  let d := {| node := n; messageId := "noSwitch"; data := [] |} in
  enter no_logic_in_ffi.create n [] = Normal (tt, ([] ++ [d])%list) /\
  In (messageId d) (map fst no_logic_in_ffi.messages).
Proof.
  intros n d.
  assert (H : enter no_logic_in_ffi.create n [] = Normal (tt, ([] ++ [d])%list))
    by reflexivity.
  split; [exact H|].
  exact (proj1 (reported_keys_are_declared n [] d) H).
Defined.

(** X12. A completed visit of either rule keeps the earlier reports, in order,
    and adds after them at most one report, made on the visited node; what
    it adds is what the same visit reports from an empty context. *)
Theorem visit_extends_context (ls : listeners) :
  ls = no_logic_in_ffi.create \/ ls = no_local_imports.create ->
  forall (n : visited) (ctx ctx' : context),
    enter ls n ctx = Normal (tt, ctx') ->
    exists ds,
      ctx' = (ctx ++ ds)%list /\
      (List.length ds <= 1)%nat /\
      Forall (fun d => node d = n) ds /\
      enter ls n [] = Normal (tt, ds).
Proof.
  intros Hls n ctx ctx' Hrun.
  assert (H : exists ids, at_most_one_report ids (enter ls) /\ stateless (enter ls)).
  { destruct Hls as [-> | ->].
    - exists logic_keys. split;
        [exact no_logic_in_ffi_at_most_one_report | exact no_logic_in_ffi_stateless].
    - exists import_keys. split;
        [exact no_local_imports_at_most_one_report | exact no_local_imports_stateless]. }
  destruct H as [ids [Hone Hst]].
  destruct (Hone n []) as [[e He] | [Hn | [d [Hd [Hnode _]]]]].
  - rewrite (Hst n ctx), He in Hrun. discriminate Hrun.
  - rewrite (Hst n ctx), Hn, app_nil_r in Hrun. injection Hrun as <-.
    exists []. rewrite app_nil_r. repeat split; auto.
  - rewrite (Hst n ctx), Hd in Hrun. injection Hrun as <-.
    exists [d]. repeat split; simpl; auto.
Qed.

Lemma visit_extends_context_witness :
  let earlier :=
    {| node := Visit (ESTree.Program []) None; messageId := "noLoops"; data := [] |} in
  let n := Visit Examples.x_map_f None in
  let d := {| node := n; messageId := "noArrayMethods";
              data := [("method", Str "map")] |} in
  enter no_logic_in_ffi.create n [earlier] = Normal (tt, [earlier; d]) /\
  exists ds, [earlier; d] = ([earlier] ++ ds)%list /\ (List.length ds <= 1)%nat.
Proof.
  intros earlier n d.
  assert (H : enter no_logic_in_ffi.create n [earlier] = Normal (tt, [earlier; d]))
    by reflexivity.
  split; [exact H|].
  destruct (visit_extends_context no_logic_in_ffi.create (or_introl eq_refl)
              n [earlier] [earlier; d] H) as [ds [Hds [Hlen _]]].
  exists ds. auto.
Defined.

End KeysAndContext.

(* ================================================================== *)
(** * Where a callback can throw *)
(* ================================================================== *)

Section Throws.

Lemma conforms_not_fielded (t : string) (children : list ESTree.node) :
  conforms (ESTree.Other t children) = true -> ~ In t fielded_types.
Proof.
  unfold conforms. intros H Hin. apply negb_true_iff in H.
  assert (E : existsb (String.eqb t) fielded_types = true).
  { apply existsb_exists. exists t. split; [exact Hin | apply String.eqb_refl]. }
  congruence.
Qed.

(** X13. On a conforming visit [no-logic-in-ffi] never throws. *)
Theorem no_logic_in_ffi_never_throws (n : visited) (ctx : context) :
  conforming_visit n = true ->
  exists ctx', enter no_logic_in_ffi.create n ctx = Normal (tt, ctx').
Proof.
  destruct n as [s p]. unfold conforming_visit; simpl.
  intros H. apply andb_true_iff in H. destruct H as [H Hp].
  apply andb_true_iff in H. destruct H as [Hs Hc].
  destruct s; try (eexists; reflexivity).
  - (* CallExpression *)
    unfold enter; simpl. unfold no_logic_in_ffi.CallExpression, bind; simpl.
    destruct s; try (eexists; reflexivity).
    + simpl. destruct (_ && _); eexists; reflexivity.
    + apply conforms_not_fielded in Hc.
      assert (E : (type =? "MemberExpression") = false).
      { apply String.eqb_neq. intros ->. apply Hc. simpl. tauto. }
      simpl. rewrite E. eexists; reflexivity.
  - (* FunctionDeclaration *)
    destruct p as [p|]; [| discriminate Hp].
    unfold enter; simpl. unfold no_logic_in_ffi.FunctionDeclaration, bind; simpl.
    destruct (_ && _); eexists; reflexivity.
  - (* Other *)
    apply conforms_not_fielded in Hs.
    unfold enter; cbn [self ESTree.type].
    rewrite listener_None; [eexists; reflexivity|].
    simpl in Hs |- *. tauto.
Qed.

Lemma no_logic_in_ffi_never_throws_witness :
  let n := Visit Examples.require_42 (Some (ESTree.Program [])) in
  conforming_visit n = true /\
  exists ctx', enter no_logic_in_ffi.create n [] = Normal (tt, ctx').
Proof.
  intros n. split; [reflexivity|].
  exact (no_logic_in_ffi_never_throws n [] eq_refl).
Defined.

End Throws.

Section ThrowsOfNoLocalImports.
Import no_local_imports.

Lemma isLocalImport_Throw_inv (v : JS.value) (e : error) :
  isLocalImport v = Throw e ->
  ToBoolean v = true /\ (forall s, v <> Str s) /\
  e = TypeError "source.startsWith is not a function".
Proof.
  intros H. destruct (ToBoolean v) eqn:Ht.
  - destruct (not_string_dec v) as [[s ->] | Hs].
    + rewrite isLocalImport_string in H. discriminate H.
    + rewrite (isLocalImport_throws v Ht Hs) in H. injection H as <-. auto.
  - unfold isLocalImport in H. rewrite Ht in H. discriminate H.
Qed.

Lemma conforms_source (s : ESTree.node) :
  conforms s = true ->
  ESTree.type s = "ImportDeclaration" \/ ESTree.type s = "ImportExpression" ->
  ESTree.source s <> None.
Proof.
  intros Hc Ht. destruct s; simpl in Ht |- *;
    try discriminate; try (destruct Ht as [Ht | Ht]; discriminate Ht).
  apply conforms_not_fielded in Hc. destruct Hc.
  destruct Ht as [-> | ->]; simpl; tauto.
Qed.

Lemma conforms_call (s : ESTree.node) :
  conforms s = true -> ESTree.type s = "CallExpression" ->
  ESTree.callee s <> None /\ ESTree.arguments s <> None.
Proof.
  intros Hc Ht. destruct s; simpl in Ht |- *; try discriminate Ht.
  - split; discriminate.
  - apply conforms_not_fielded in Hc. destruct Hc. subst. simpl; tauto.
Qed.

(** X14. On a conforming visit [no-local-imports] throws only through
    [isLocalImport]: the visited node is a static import, a call of the
    identifier [require] with a [Literal] first argument, or a dynamic
    import with a [Literal] source, and the value examined is truthy and
    not a string. *)
Theorem no_local_imports_throws_only_on_literals
    (n : visited) (ctx : context) (e : error) :
  conforming_visit n = true ->
  enter create n ctx = Throw e ->
  e = TypeError "source.startsWith is not a function" /\
  exists v : JS.value,
    ToBoolean v = true /\ (forall s, v <> Str s) /\
    ((ESTree.type (self n) = "ImportDeclaration" /\
      exists src, ESTree.source (self n) = Some src /\ ESTree.value src = v) \/
     (ESTree.type (self n) = "CallExpression" /\
      exists c a0 more,
        ESTree.callee (self n) = Some c /\
        ESTree.type c = "Identifier" /\ ESTree.name c = Str "require" /\
        ESTree.arguments (self n) = Some (a0 :: more) /\
        ESTree.type a0 = "Literal" /\ ESTree.value a0 = v) \/
     (ESTree.type (self n) = "ImportExpression" /\
      exists src, ESTree.source (self n) = Some src /\
                  ESTree.type src = "Literal" /\ ESTree.value src = v)).
Proof.
  intros Hwf. unfold conforming_visit in Hwf.
  apply andb_true_iff in Hwf. destruct Hwf as [Hwf _].
  apply andb_true_iff in Hwf. destruct Hwf as [Hs _].
  unfold enter.
  destruct (listener _ _) as [f|] eqn:Hf; [| discriminate].
  apply listener_Some in Hf. simpl in Hf.
  destruct Hf as [Hf | [Hf | [Hf | []]]]; injection Hf as Ht <-; symmetry in Ht.
  - pose proof (conforms_source _ Hs (or_introl Ht)) as Hsrc.
    unfold ImportDeclaration. run_callback; intros H; try discriminate H;
      try contradiction.
    injection H as <-.
    match goal with
    | E : isLocalImport _ = Throw _ |- _ =>
        destruct (isLocalImport_Throw_inv _ _ E) as [Hb [Hns ->]]
    end.
    split; [reflexivity|]. eexists. repeat split; try eassumption.
    left. split; [exact Ht|]. eauto.
  - destruct (conforms_call _ Hs Ht) as [Hcal Harg].
    unfold CallExpression. run_callback; intros H; try discriminate H;
      try contradiction.
    + injection H as <-.
      match goal with
      | E : isLocalImport _ = Throw _ |- _ =>
          destruct (isLocalImport_Throw_inv _ _ E) as [Hb [Hns ->]]
      end.
      split; [reflexivity|]. eexists. repeat split; try eassumption.
      right; left. split; [exact Ht|].
      match goal with
      | E : _ && _ = true |- _ => apply andb_true_iff in E; destruct E as [E1 E2]
      end.
      apply String.eqb_eq in E1. apply strict_eq_string_true in E2.
      match goal with
      | E : nth_error ?l 0 = Some ?a |- _ =>
          destruct l as [|a' more]; simpl in E; [discriminate E | injection E as ->]
      end.
      match goal with
      | E : (ESTree.type _ =? "Literal") = true |- _ => apply String.eqb_eq in E
      end.
      eauto 12.
    + exfalso.
      match goal with
      | E : nth_error ?l 0 = None, L : (0 <? List.length ?l)%nat = true |- _ =>
          destruct l; [discriminate L | discriminate E]
      end.
  - pose proof (conforms_source _ Hs (or_intror Ht)) as Hsrc.
    unfold ImportExpression. run_callback; intros H; try discriminate H;
      try contradiction.
    injection H as <-.
    match goal with
    | E : isLocalImport _ = Throw _ |- _ =>
        destruct (isLocalImport_Throw_inv _ _ E) as [Hb [Hns ->]]
    end.
    split; [reflexivity|]. eexists. repeat split; try eassumption.
    right; right. split; [exact Ht|].
    match goal with
    | E : (ESTree.type _ =? "Literal") = true |- _ => apply String.eqb_eq in E
    end.
    eauto.
Qed.

Lemma no_local_imports_throws_only_on_literals_witness :
  let n := Visit Examples.require_42 (Some (ESTree.Program [])) in
  conforming_visit n = true /\
  enter create n [] = Throw (TypeError "source.startsWith is not a function") /\
  exists v : JS.value, ToBoolean v = true /\ (forall s, v <> Str s).
Proof.
  intros n.
  assert (H : enter create n [] =
              Throw (TypeError "source.startsWith is not a function"))
    by reflexivity.
  split; [reflexivity|]. split; [exact H|].
  destruct (no_local_imports_throws_only_on_literals n [] _ eq_refl H)
    as [_ [v [Hb [Hs _]]]].
  exists v. auto.
Defined.

End ThrowsOfNoLocalImports.
